(** * Message service: a shallow embedding of [application.py]

    The Flask application exposes three data handlers over one DynamoDB
    table: [list_messages], [create_message] and [delete_message].  Each
    handler is embedded as a function in a small state-and-exception
    monad over the table; what the handlers read from their environment
    (the parsed request body, the [limit] query argument, [ulid.new()],
    [time.time()], a failure reported by the backend) is an explicit
    argument. *)

From Stdlib Require Import ZArith String Ascii Decimal DecimalString DecimalZ OrdersEx.
From stdpp Require Import base option list sorting strings gmap fin_maps.

Set Warnings "-register-all".

Local Open Scope string_scope.
Local Open Scope Z_scope.

(** ** Python values

    The values [request.get_json] can return.  One [ascii] stands for one
    character of a Python [str]; a [float] is carried by its [repr], which
    determines it; a [dict] is the list of its items in insertion order. *)

Inductive pyval :=
| PNone
| PBool (b : bool)
| PInt (n : Z)
| PFloat (repr : string)
| PStr (s : string)
| PList (l : list pyval)
| PDict (d : list (string * pyval)).

(** Exceptions the handlers can meet.  [ClientError] carries
    [e.response["Error"]["Code"]] and [e.response["Error"]["Message"]];
    [HTTPException] is what [abort(code, description)] raises. *)

Inductive exn :=
| ClientError (Code Message : string)
| ParamValidationError
| HTTPException (code : Z) (description : string)
| ValueError
| AttributeError.

Inductive result (A : Type) :=
| Ok (a : A)
| Raise (e : exn).
Arguments Ok {A} a.
Arguments Raise {A} e.

(** Truth value of a Python object, as [or] and [not] test it. *)

Definition truthy (v : pyval) : bool :=
  match v with
  | PNone => false
  | PBool b => b
  | PInt n => negb (n =? 0)
  | PFloat r => negb (String.eqb r "0.0" || String.eqb r "-0.0")
  | PStr s => negb (String.eqb s EmptyString)
  | PList l => match l with [] => false | _ :: _ => true end
  | PDict d => match d with [] => false | _ :: _ => true end
  end.

(** [a or b] *)
Definition py_or (a b : pyval) : pyval := if truthy a then a else b.

(** *** [str()] and [repr()] *)

Definition hex_digit (n : N) : ascii :=
  ascii_of_N (if (n <? 10)%N then 48 + n else 87 + n)%N.

(** [\xhh] *)
Definition hex_escape (c : ascii) : string :=
  let n := N_of_ascii c in
  String "\" (String "x" (String (hex_digit (n / 16)) (String (hex_digit (n mod 16)) EmptyString))).

(** Characters below U+0100 that [str.isprintable] rejects. *)
Definition unprintable (c : ascii) : bool :=
  let n := N_of_ascii c in
  ((n <? 32) || ((127 <=? n) && (n <=? 160)) || (n =? 173))%N.

Fixpoint contains_char (c : ascii) (s : string) : bool :=
  match s with
  | EmptyString => false
  | String a s' => Ascii.eqb a c || contains_char c s'
  end.

Definition single_quote : ascii := ascii_of_N 39.
Definition double_quote : ascii := ascii_of_N 34.

Fixpoint repr_chars (quote : ascii) (s : string) : string :=
  match s with
  | EmptyString => EmptyString
  | String c s' =>
      (if Ascii.eqb c quote || Ascii.eqb c "\" then String "\" (String c EmptyString)
       else if Ascii.eqb c (ascii_of_N 9) then "\t"
       else if Ascii.eqb c (ascii_of_N 10) then "\n"
       else if Ascii.eqb c (ascii_of_N 13) then "\r"
       else if unprintable c then hex_escape c
       else String c EmptyString) +:+ repr_chars quote s'
  end.

(** [repr] of a [str]: single quotes, unless the text has a single quote
    and no double quote. *)
Definition repr_str (s : string) : string :=
  let quote :=
    if contains_char single_quote s && negb (contains_char double_quote s)
    then double_quote else single_quote in
  String quote (repr_chars quote s +:+ String quote EmptyString).

(** [", ".join(parts)] *)
Fixpoint join_comma (parts : list string) : string :=
  match parts with
  | [] => EmptyString
  | [p] => p
  | p :: rest => p +:+ ", " +:+ join_comma rest
  end.

Definition str_int (n : Z) : string := NilZero.string_of_int (Z.to_int n).

Fixpoint py_repr (v : pyval) : string :=
  match v with
  | PNone => "None"
  | PBool true => "True"
  | PBool false => "False"
  | PInt n => str_int n
  | PFloat r => r
  | PStr s => repr_str s
  | PList l => "[" +:+ join_comma (List.map py_repr l) +:+ "]"
  | PDict d =>
      "{" +:+ join_comma (List.map (fun kv => repr_str (fst kv) +:+ ": " +:+ py_repr (snd kv)) d)
          +:+ "}"
  end.

(** [str(v)]: a [str] is itself, anything else prints as its [repr]. *)
Definition py_str (v : pyval) : string :=
  match v with
  | PStr s => s
  | _ => py_repr v
  end.

(** [s[:n]] *)
Definition slice_to (n : nat) (s : string) : string := substring 0 n s.

(** [d.get(key)] on the items of a dict *)
Fixpoint dict_lookup (d : list (string * pyval)) (key : string) : option pyval :=
  match d with
  | [] => None
  | (k, v) :: d' => if String.eqb k key then Some v else dict_lookup d' key
  end.

(** [payload.get(key, default)]: only a dict has the method. *)
Definition py_get (payload : pyval) (key : string) (default : pyval) : result pyval :=
  match payload with
  | PDict d => Ok (from_option id default (dict_lookup d key))
  | _ => Raise AttributeError
  end.

(** *** [int()] of a [str] *)

(** Characters below U+0100 that [int()] skips around a literal: the
    ASCII white space (tab to carriage return, and the space), and the
    two white-space characters above U+007F, which [int()] turns into
    spaces before it reads.  The separators U+001C to U+001F are not
    skipped. *)
Definition is_space (c : ascii) : bool :=
  let n := N_of_ascii c in
  (((9 <=? n) && (n <=? 13)) || (n =? 32) || (n =? 133) || (n =? 160))%N.

(** The string without the white space before the literal. *)
Fixpoint lstrip (s : string) : string :=
  match s with
  | EmptyString => EmptyString
  | String c s' => if is_space c then lstrip s' else s
  end.

(** Nothing but white space, as may follow the digits. *)
Fixpoint only_space (s : string) : bool :=
  match s with
  | EmptyString => true
  | String c s' => is_space c && only_space s'
  end.

Definition is_digit (c : ascii) : bool :=
  let n := N_of_ascii c in ((48 <=? n) && (n <=? 57))%N.

(** [digits s after_digit]: the decimal number written by [s].
    [after_digit] tells whether the previous character was a digit, which
    is where an underscore or the end of the literal may stand. *)
Fixpoint digits (s : string) (after_digit : bool) : option uint :=
  match s with
  | EmptyString => if after_digit then Some Nil else None
  | String c s' =>
      if is_digit c then uint_of_char c (digits s' true)
      else if Ascii.eqb c "_" then
        if after_digit then
          match s' with
          | String c' _ => if is_digit c' then digits s' false else None
          | EmptyString => None
          end
        else None
      else if after_digit && only_space s then Some Nil
      else None
  end.

(** [sys.int_max_str_digits], the interpreter's default cap on the
    digits of a literal. *)
Definition int_max_str_digits : nat := 4300.

(** [int(s)]: white space, an optional sign, the digits, white space;
    a literal of more digits than the cap is refused. *)
Definition py_int (s : string) : result Z :=
  let body := lstrip s in
  let '(negative, body) :=
    match body with
    | String c rest =>
        if Ascii.eqb c "+" then (false, rest)
        else if Ascii.eqb c "-" then (true, rest)
        else (false, body)
    | EmptyString => (false, body)
    end in
  match digits body false with
  | Some d =>
      if (int_max_str_digits <? nb_digits d)%nat then Raise ValueError
      else Ok (if negative then - Z.of_uint d else Z.of_uint d)
  | None => Raise ValueError
  end.

(** ** The table

    A message as the handlers build and return it (the [item] dict). *)

Record Message := {
  room_id : string;
  msg_id : string;
  ts : Z;
  user : string;
  text : string
}.

(** The attributes of an item besides its key. *)
Record Attributes := {
  attr_ts : Z;
  attr_user : string;
  attr_text : string
}.

(** Modelled from the spec: the storage collaborator (the boto3 [Table]
    the handlers call, absent from the sources) is an ordered key-value
    store with partition key [room_id] and sort key [msg_id]; an item is
    held under its key.  Its three operations follow the storage contract
    of the specification: a range scan within a partition, a put
    conditioned on the key not existing and a delete conditioned on the
    key existing. *)
Abbreviation Table := (gmap (string * string) Attributes).

Definition item_key (m : Message) : string * string := (room_id m, msg_id m).

Definition item_attrs (m : Message) : Attributes :=
  {| attr_ts := ts m; attr_user := user m; attr_text := text m |}.

Definition item_of (kv : string * string * Attributes) : Message :=
  {| room_id := kv.1.1; msg_id := kv.1.2;
     ts := attr_ts kv.2; user := attr_user kv.2; text := attr_text kv.2 |}.

(** Order of the sort key: strings compared character by character. *)
Definition str_le (a b : string) : Prop := String_as_OT.compare a b ≠ Gt.
Definition str_lt (a b : string) : Prop := String_as_OT.compare a b = Lt.

Definition msg_le (x y : Message) : Prop := str_le (msg_id x) (msg_id y).
Definition msg_lt (x y : Message) : Prop := str_lt (msg_id x) (msg_id y).

Global Instance str_le_dec a b : Decision (str_le a b).
Proof. unfold str_le. apply _. Defined.

Global Instance msg_le_dec x y : Decision (msg_le x y).
Proof. unfold msg_le. apply _. Defined.

(** The items of one partition, ascending by sort key. *)
Definition partition_items (t : Table) (room : string) : list Message :=
  merge_sort msg_le (item_of <$> filter (λ kv, kv.1.1 = room) (map_to_list t)).

(** ** The handler monad: the table is threaded, an exception ends the run *)

Definition M (A : Type) : Type := Table → result A * Table.

Definition ret {A} (a : A) : M A := λ t, (Ok a, t).

Definition bind {A B} (m : M A) (k : A → M B) : M B :=
  λ t, match m t with
       | (Ok a, t') => k a t'
       | (Raise e, t') => (Raise e, t')
       end.

Definition raise {A} (e : exn) : M A := λ t, (Raise e, t).

Definition lift {A} (r : result A) : M A := λ t, (r, t).

Declare Scope handler_scope.
Delimit Scope handler_scope with handler.
Notation "x <- m ;; k" := (bind m (λ x, k))
  (at level 100, m at next level, right associativity) : handler_scope.
Notation "m ;; k" := (bind m (λ _, k))
  (at level 100, right associativity) : handler_scope.
Local Open Scope handler_scope.

(** [abort(code, description)] *)
Definition abort {A} (code : Z) (description : string) : M A :=
  raise (HTTPException code description).

(** [try: body  except ClientError as e: handler] *)
Definition try_except_ClientError {A} (body : M A) (handler : string → string → M A) : M A :=
  λ t, match body t with
       | (Raise (ClientError code message), t') => handler code message t'
       | r => r
       end.

(** *** Storage operations

    [fault] is a failure the backend reports for this call, as the
    [Code] and [Message] of a [ClientError]; [None] when it serves the
    call. *)

Definition backend {A} (fault : option (string * string)) (serve : M A) : M A :=
  match fault with
  | Some (code, message) => raise (ClientError code message)
  | None => serve
  end.

Definition ConditionalCheckFailed : exn :=
  ClientError "ConditionalCheckFailedException" "The conditional request failed".

(** Modelled from the spec: the storage call [query(partition_key,
    ascending, limit)], as the handler makes it:
    [table.query(KeyConditionExpression=Key("room_id").eq(room),
    ScanIndexForward=True, Limit=limit)["Items"]]; the client refuses a
    [Limit] below 1 before it sends anything. *)
Definition query (fault : option (string * string)) (room : string) (limit : Z)
    : M (list Message) :=
  if limit <? 1 then raise ParamValidationError
  else backend fault (λ t, (Ok (take (Z.to_nat limit) (partition_items t room)), t)).

(** Modelled from the spec: the storage call [put(record, condition:
    key_not_exists)], as the handler makes it:
    [table.put_item(Item=item, ConditionExpression="attribute_not_exists(msg_id)")] *)
Definition put_item (fault : option (string * string)) (item : Message) : M unit :=
  backend fault (λ t,
    match t !! item_key item with
    | Some _ => (Raise ConditionalCheckFailed, t)
    | None => (Ok tt, <[item_key item := item_attrs item]> t)
    end).

(** Modelled from the spec: the storage call [delete(key, condition:
    key_exists)], as the handler makes it:
    [table.delete_item(Key={"room_id": room, "msg_id": id},
    ConditionExpression="attribute_exists(msg_id)")] *)
Definition delete_item (fault : option (string * string)) (room id : string) : M unit :=
  backend fault (λ t,
    match t !! (room, id) with
    | Some _ => (Ok tt, delete (room, id) t)
    | None => (Raise ConditionalCheckFailed, t)
    end).

(** ** The handlers *)

(** What a view function returns: the body and the status. *)
Inductive body :=
| JsonItem (m : Message)
| JsonItems (l : list Message)
| Text (s : string).

Definition response : Type := body * Z.

(** [request.get_json(force=True, silent=True)]: the parsed body, [None]
    when the request has no body or one that is not JSON. *)
Definition get_json (data : option pyval) : pyval := default PNone data.

(** [request.args.get("limit", "50")] *)
Definition args_get_limit (limit : option string) : string := default "50" limit.

Definition list_messages (fault : option (string * string)) (limit : option string)
    (room : string) : M response :=
  try_except_ClientError
    (n <- lift (py_int (args_get_limit limit));;
     items <- query fault room n;;
     ret (JsonItems items, 200))
    (λ _ message, abort 500 message).

Definition create_message (fault : option (string * string)) (new_ulid : string) (now_ms : Z)
    (data : option pyval) (room : string) : M response :=
  let payload := py_or (get_json data) (PDict []) in
  u <- lift (py_get payload "user" (PStr "anonymous"));;
  let user := slice_to 64 (py_str u) in
  x <- lift (py_get payload "text" (PStr EmptyString));;
  let text := slice_to 4096 (py_str x) in
  (if negb (truthy (PStr text)) then abort 400 "text is required" else ret tt);;
  let msg_id := new_ulid in
  let ts := now_ms in
  let item := {| room_id := room; msg_id := msg_id; ts := ts; user := user; text := text |} in
  try_except_ClientError
    (put_item fault item;;
     ret (JsonItem item, 201))
    (λ _ message, abort 500 message).

Definition delete_message (fault : option (string * string)) (room id : string) : M response :=
  try_except_ClientError
    (delete_item fault room id;;
     ret (Text EmptyString, 204))
    (λ code message,
       if String.eqb code "ConditionalCheckFailedException"
       then abort 404 "message not found"
       else abort 500 message).

(** ** Vocabulary of the statements *)

(** [payload = request.get_json(force=True, silent=True) or {}] *)
Definition payload_of (data : option pyval) : pyval := py_or (get_json data) (PDict []).

(** The two fields [create_message] reads off a dict payload. *)
Definition user_of (d : list (string * pyval)) : string :=
  slice_to 64 (py_str (from_option id (PStr "anonymous") (dict_lookup d "user"))).

Definition text_of (d : list (string * pyval)) : string :=
  slice_to 4096 (py_str (from_option id (PStr EmptyString) (dict_lookup d "text"))).

(** The record [create_message] builds from a dict payload. *)
Definition new_item (new_ulid : string) (now_ms : Z) (room : string)
    (d : list (string * pyval)) : Message :=
  {| room_id := room; msg_id := new_ulid; ts := now_ms;
     user := user_of d; text := text_of d |}.

(** The records of a response body with a given text and room. *)
Definition with_text (room txt : string) (items : list Message) : list Message :=
  filter (λ m, text m = txt ∧ room_id m = room) items.

(** The round trip as the specification words it: after a create with
    text, a list of the same room (default limit) holds exactly one record
    with that text and room. *)
Definition create_then_list_one (new_ulid : string) (now_ms : Z) (data : option pyval)
    (room : string) (t : Table) : Prop :=
  ∀ d, payload_of data = PDict d → text_of d ≠ EmptyString →
    ∃ items status,
      (list_messages None None room
         (create_message None new_ulid now_ms data room t).2).1
      = Ok (JsonItems items, status) ∧
      List.length (with_text room (text_of d) items) = 1%nat.

(** [s.replace("_", "")] *)
Fixpoint strip_underscores (s : string) : string :=
  match s with
  | EmptyString => EmptyString
  | String c s' =>
      if Ascii.eqb c "_" then strip_underscores s' else String c (strip_underscores s')
  end.

(** The digits of a decimal literal: a digit first and last, single
    underscores between digits allowed. *)
Inductive digit_groups : string → Prop :=
| groups_last c :
    is_digit c = true → digit_groups (String c EmptyString)
| groups_digit c s :
    is_digit c = true → digit_groups s → digit_groups (String c s)
| groups_underscore c s :
    is_digit c = true → digit_groups s → digit_groups (String c (String "_" s)).

(** A [limit] argument as the specification constrains it, one that
    "parses as a positive integer": absent, which stands for 50, or a
    decimal literal of a positive integer, that is white space, an
    optional plus sign, the digits (at most 4300, the cap of [int()]),
    white space.  [n] is the number the digits write. *)
Definition limit_reads (limit : option string) (n : Z) : Prop :=
  match limit with
  | None => n = 50
  | Some s =>
      ∃ pad1 sign body pad2 u,
        only_space pad1 = true ∧ only_space pad2 = true ∧
        (sign = EmptyString ∨ sign = "+") ∧
        digit_groups body ∧
        s = pad1 +:+ sign +:+ body +:+ pad2 ∧
        NilEmpty.uint_of_string (strip_underscores body) = Some u ∧
        (nb_digits u ≤ 4300)%nat ∧
        n = Z.of_uint u ∧
        0 < n
  end.

(** ** Sample requests and tables *)

(** [{"user": "alice", "text": "hi"}] *)
Definition alice_hi : option pyval :=
  Some (PDict [("user", PStr "alice"); ("text", PStr "hi")]).

(** [{"user": null, "text": "hi"}] *)
Definition null_user_hi : option pyval :=
  Some (PDict [("user", PNone); ("text", PStr "hi")]).

(** [{}] *)
Definition empty_object : option pyval := Some (PDict []).

Definition alice_attrs : Attributes :=
  {| attr_ts := 1000; attr_user := "alice"; attr_text := "hi" |}.

(** A table that holds one message of room [lobby]. *)
Definition lobby_table : Table := {[ ("lobby", "01A") := alice_attrs ]}.

(** ** Limits: vocabulary *)

(** Characters a decimal literal of [int()] can hold. *)
Definition literal_char (c : ascii) : bool :=
  is_digit c || is_space c || Ascii.eqb c "_" || Ascii.eqb c "+" || Ascii.eqb c "-".

Fixpoint has_foreign_char (s : string) : bool :=
  match s with
  | EmptyString => false
  | String c s' => negb (literal_char c) || has_foreign_char s'
  end.

(** A display name of 70 characters. *)
Definition long_name : string :=
  "0123456789012345678901234567890123456789012345678901234567890123456789".

(** [{"user": long_name, "text": "hi"}] *)
Definition long_name_hi : option pyval :=
  Some (PDict [("user", PStr long_name); ("text", PStr "hi")]).

(** [{"text": null}] *)
Definition null_text : option pyval := Some (PDict [("text", PNone)]).

(** ** The order of the sort key *)

Section sort_key_order.

Lemma str_lt_irrefl a : ¬ str_lt a a.
Proof. apply (StrictOrder_Irreflexive (R:=String_as_OT.lt)). Qed.

Global Instance str_lt_trans : Transitive str_lt.
Proof. intros a b c. apply (transitivity (R:=String_as_OT.lt)). Qed.

Lemma str_compare_refl a : String_as_OT.compare a a = Eq.
Proof.
  destruct (String_as_OT.compare_spec a a) as [_|H|H]; [done|..];
    by destruct (str_lt_irrefl a).
Qed.

Lemma str_compare_Gt a b : String_as_OT.compare a b = Gt ↔ str_lt b a.
Proof.
  unfold str_lt.
  destruct (String_as_OT.compare_spec a b) as [->|H|H].
  - rewrite str_compare_refl. split; discriminate.
  - split; [discriminate|]. intros H'.
    destruct (str_lt_irrefl a). by etrans.
  - done.
Qed.

Lemma str_le_lt_eq a b : str_le a b ↔ str_lt a b ∨ a = b.
Proof.
  unfold str_le, str_lt.
  destruct (String_as_OT.compare_spec a b) as [Heq|H|H].
  - split; [by right|done].
  - split; [by left|done].
  - split; [done|]. intros [?|Heq]; [done|].
    rewrite Heq in H. by destruct (str_lt_irrefl b).
Qed.

Global Instance str_le_total : Total str_le.
Proof.
  intros a b. unfold str_le.
  destruct (String_as_OT.compare a b) eqn:E; [by left..|].
  right. apply str_compare_Gt in E. unfold str_lt in E. by rewrite E.
Qed.

Global Instance str_le_trans : Transitive str_le.
Proof.
  intros a b c. rewrite !str_le_lt_eq.
  intros [?| ->] [?| ->]; eauto. left. by etrans.
Qed.

Lemma str_le_antisym a b : str_le a b → str_le b a → a = b.
Proof.
  rewrite !str_le_lt_eq. intros [H1| ->] [H2|H2]; try done.
  destruct (str_lt_irrefl a). by etrans.
Qed.

Global Instance msg_le_total : Total msg_le.
Proof. intros x y. apply str_le_total. Qed.

Global Instance msg_le_trans : Transitive msg_le.
Proof. intros x y z. apply str_le_trans. Qed.

End sort_key_order.

(** ** What a partition scan returns *)

Section partition.
Implicit Types (t : Table) (m : Message) (room : string).

Lemma item_of_key_attrs m : item_of (item_key m, item_attrs m) = m.
Proof. by destruct m. Qed.

Global Instance item_of_inj : Inj (=) (=) item_of.
Proof. intros [[??][???]] [[??][???]] [=]; by simplify_eq/=. Qed.

(** A scan returns the items held under a key of the partition. *)
Lemma elem_of_partition_items t room m :
  m ∈ partition_items t room ↔
  room_id m = room ∧ t !! item_key m = Some (item_attrs m).
Proof.
  unfold partition_items. rewrite merge_sort_Permutation, list_elem_of_fmap.
  split.
  - intros ([[r i] a] & -> & [Hr Hin]%list_elem_of_filter).
    apply elem_of_map_to_list in Hin. destruct a. by split.
  - intros [Hr Hm]. exists (item_key m, item_attrs m).
    split; [by rewrite item_of_key_attrs|].
    apply list_elem_of_filter. split; [done|]. by apply elem_of_map_to_list.
Qed.

Lemma NoDup_partition_items t room : NoDup (partition_items t room).
Proof.
  unfold partition_items. rewrite merge_sort_Permutation.
  apply (NoDup_fmap_2 _), NoDup_filter, NoDup_map_to_list.
Qed.

(** Two items of one scan with the same sort key are one item. *)
Lemma partition_items_key t room m1 m2 :
  m1 ∈ partition_items t room → m2 ∈ partition_items t room →
  msg_id m1 = msg_id m2 → m1 = m2.
Proof.
  rewrite !elem_of_partition_items. intros [Hr1 H1] [Hr2 H2] Hid.
  destruct m1, m2; unfold item_key, item_attrs in *; simplify_eq/=. done.
Qed.

Lemma partition_items_sorted_le t room : StronglySorted msg_le (partition_items t room).
Proof. apply (StronglySorted_merge_sort _). Qed.

(** The scan is strictly ascending in the sort key. *)
Lemma partition_items_sorted t room : StronglySorted msg_lt (partition_items t room).
Proof.
  pose proof (partition_items_sorted_le t room) as Hs.
  pose proof (NoDup_partition_items t room) as Hn.
  assert (Hk : ∀ m1 m2, m1 ∈ partition_items t room → m2 ∈ partition_items t room →
                        msg_id m1 = msg_id m2 → m1 = m2)
    by (intros; by eapply partition_items_key).
  induction Hs as [|x l Hs IH Hx]; [constructor|].
  apply NoDup_cons in Hn as [Hxl Hn].
  constructor.
  - apply IH; [done|]. intros. apply Hk; [by right|by right|done].
  - apply Forall_forall. intros y Hy.
    rewrite Forall_forall in Hx. specialize (Hx y Hy).
    apply str_le_lt_eq in Hx as [?|Heq]; [done|].
    destruct Hxl. by rewrite (Hk x y); [|left|right|].
Qed.

(** The scan depends on the keys of its partition only. *)
Lemma partition_items_ext t1 t2 room :
  (∀ id, t1 !! (room, id) = t2 !! (room, id)) →
  partition_items t1 room = partition_items t2 room.
Proof.
  intros Hext.
  assert (Hmem : ∀ m, m ∈ partition_items t1 room ↔ m ∈ partition_items t2 room).
  { intros m. rewrite !elem_of_partition_items. unfold item_key.
    specialize (Hext (msg_id m)).
    split; intros [<- H]; (split; [done|]); congruence. }
  apply (StronglySorted_unique_strong msg_le); try apply partition_items_sorted_le.
  - intros x1 x2 H1 H2 Hle1 Hle2. apply Hmem in H1.
    eapply partition_items_key; [done..|]. by apply str_le_antisym.
  - apply NoDup_Permutation; auto using NoDup_partition_items.
Qed.

Lemma partition_items_empty t room :
  (∀ id, t !! (room, id) = None) → partition_items t room = [].
Proof.
  intros Hnone. apply elem_of_nil_inv. intros m.
  rewrite elem_of_partition_items. intros [<- H].
  unfold item_key in H. by rewrite Hnone in H.
Qed.

End partition.

(** ** Normalisation of the create request *)

Section normalisation.
Implicit Types (d : list (string * pyval)) (s : string) (v : pyval).

Lemma slice_to_length n s : (String.length (slice_to n s) ≤ n)%nat.
Proof.
  unfold slice_to. revert s.
  induction n as [|n IH]; intros [|c s]; simpl; try lia.
  specialize (IH s). lia.
Qed.

Lemma slice_to_short n s : (String.length s ≤ n)%nat → slice_to n s = s.
Proof.
  unfold slice_to. revert s.
  induction n as [|n IH]; intros [|c s]; simpl; intros; try done; try lia.
  f_equal. apply IH. lia.
Qed.

Lemma user_of_length d : (String.length (user_of d) ≤ 64)%nat.
Proof. apply slice_to_length. Qed.

Lemma text_of_length d : (String.length (text_of d) ≤ 4096)%nat.
Proof. apply slice_to_length. Qed.

Lemma truthy_str_false s : negb (truthy (PStr s)) = true ↔ s = EmptyString.
Proof.
  simpl. rewrite negb_involutive. apply String.eqb_eq.
Qed.

(** A falsy body is replaced by the empty dict. *)
Lemma payload_falsy v : truthy v = false → py_or v (PDict []) = PDict [].
Proof. unfold py_or. by intros ->. Qed.

Lemma text_of_nil : text_of [] = EmptyString.
Proof. reflexivity. Qed.

End normalisation.

(** ** Runs of [create_message] *)

Section create.
Context (fault : option (string * string)) (new_ulid : string) (now_ms : Z).
Implicit Types (data : option pyval) (room : string) (t : Table).

(** A payload that is not a dict has no [get]. *)
Lemma create_message_not_dict data room t :
  (∀ d, payload_of data ≠ PDict d) →
  create_message fault new_ulid now_ms data room t = (Raise AttributeError, t).
Proof.
  intros Hnd. unfold create_message. fold (payload_of data).
  destruct (payload_of data) eqn:E; try done.
  by destruct (Hnd d).
Qed.

(** Empty text after normalisation: rejected before the table is used. *)
Lemma create_message_empty_text data room t d :
  payload_of data = PDict d →
  text_of d = EmptyString →
  create_message fault new_ulid now_ms data room t
  = (Raise (HTTPException 400 "text is required"), t).
Proof.
  intros Hd Htext. unfold create_message. fold (payload_of data). rewrite Hd.
  unfold bind, lift, py_get. fold (text_of d). by rewrite Htext.
Qed.

(** Otherwise the handler is the conditional put of the new record. *)
Lemma create_message_put data room t d :
  payload_of data = PDict d →
  text_of d ≠ EmptyString →
  create_message fault new_ulid now_ms data room t
  = try_except_ClientError
      (put_item fault (new_item new_ulid now_ms room d);; ret (JsonItem (new_item new_ulid now_ms room d), 201))
      (λ _ message, abort 500 message) t.
Proof.
  intros Hd Htext. unfold create_message. fold (payload_of data). rewrite Hd.
  unfold bind at 1 2 3, lift, py_get. fold (text_of d) (user_of d).
  destruct (negb (truthy (PStr (text_of d)))) eqn:E.
  - by apply truthy_str_false in E.
  - done.
Qed.

(** The four ways a run over a dict payload with text can end. *)
Lemma create_message_stored data room t d :
  payload_of data = PDict d →
  text_of d ≠ EmptyString →
  create_message fault new_ulid now_ms data room t
  = match fault with
    | Some (_, message) => (Raise (HTTPException 500 message), t)
    | None =>
        match t !! (room, new_ulid) with
        | Some _ => (Raise (HTTPException 500 "The conditional request failed"), t)
        | None => (Ok (JsonItem (new_item new_ulid now_ms room d), 201),
                   <[(room, new_ulid) := item_attrs (new_item new_ulid now_ms room d)]> t)
        end
    end.
Proof.
  intros Hd Htext. rewrite (create_message_put _ _ _ d) by done.
  unfold try_except_ClientError, bind, put_item, backend, raise, abort, ret.
  destruct fault as [[code message]|]; [done|].
  unfold item_key, new_item at 1 3; simpl.
  by destruct (t !! (room, new_ulid)).
Qed.

(** Every run leaves the table as it was or adds the new record under
    a key that was free. *)
Lemma create_message_table data room t :
  (create_message fault new_ulid now_ms data room t).2 = t ∨
  ∃ d, payload_of data = PDict d ∧ text_of d ≠ EmptyString ∧
       fault = None ∧ t !! (room, new_ulid) = None ∧
       create_message fault new_ulid now_ms data room t
       = (Ok (JsonItem (new_item new_ulid now_ms room d), 201),
          <[(room, new_ulid) := item_attrs (new_item new_ulid now_ms room d)]> t).
Proof.
  destruct (payload_of data) as [| | | | | |d] eqn:Hd;
    try (left; rewrite create_message_not_dict; [done|congruence]).
  destruct (decide (text_of d = EmptyString)) as [He|Hne].
  { left. by rewrite (create_message_empty_text _ _ _ d). }
  rewrite (create_message_stored _ _ _ d) by done.
  destruct fault as [[code message]|]; [by left|].
  destruct (t !! (room, new_ulid)) eqn:Hk; [by left|].
  right. by exists d.
Qed.

(** What an answer with a record tells about the run. *)
Lemma create_message_ok data room t m status t' :
  create_message fault new_ulid now_ms data room t = (Ok (JsonItem m, status), t') →
  ∃ d, payload_of data = PDict d ∧ text_of d ≠ EmptyString ∧
       fault = None ∧ t !! (room, new_ulid) = None ∧
       m = new_item new_ulid now_ms room d ∧ status = 201 ∧
       t' = <[(room, new_ulid) := item_attrs m]> t.
Proof.
  intros Hrun.
  destruct (payload_of data) as [| | | | | |d] eqn:Hd;
    try (rewrite create_message_not_dict in Hrun; [done|congruence]).
  destruct (decide (text_of d = EmptyString)) as [He|Hne].
  { by rewrite (create_message_empty_text _ _ _ d) in Hrun. }
  rewrite (create_message_stored _ _ _ d) in Hrun by done.
  destruct fault as [[code message]|]; [done|].
  destruct (t !! (room, new_ulid)) eqn:Hk; [done|].
  injection Hrun as <- <- <-. by exists d.
Qed.

End create.

(** ** The create handler *)

Implicit Types (fault : option (string * string)) (new_ulid room id : string) (now_ms : Z).
Implicit Types (data : option pyval) (limit : option string) (t : Table).
Implicit Types (d : list (string * pyval)) (v : pyval) (m : Message) (status n : Z).

(** C4: a create request whose normalized text is empty is rejected with
    status 400 and the description "text is required", whatever the
    backend would have answered, and the table is left as it was. *)
Theorem create_empty_text_rejected fault new_ulid now_ms data (room : string) (t : Table) d :
  payload_of data = PDict d →
  text_of d = EmptyString →
  create_message fault new_ulid now_ms data room t
  = (Raise (HTTPException 400 "text is required"), t).
Proof. apply create_message_empty_text. Qed.

Lemma create_empty_text_rejected_witness :
  create_message None "01B" 2000 empty_object "lobby" lobby_table
  = (Raise (HTTPException 400 "text is required"), lobby_table).
Proof.
  apply (create_empty_text_rejected None "01B" 2000 empty_object "lobby" lobby_table []);
    reflexivity.
Defined.

(** C9: a body that parses as null, false, 0, the empty string or the
    empty array gives the empty object as payload, so the request is
    handled as one without a body: rejected with 400 "text is required",
    the table untouched. *)
Theorem falsy_body_as_absent fault new_ulid now_ms v (room : string) (t : Table) :
  v ∈ [PNone; PBool false; PInt 0; PStr EmptyString; PList []] →
  payload_of (Some v) = PDict [] ∧
  create_message fault new_ulid now_ms (Some v) room t
  = create_message fault new_ulid now_ms None room t ∧
  create_message fault new_ulid now_ms (Some v) room t
  = (Raise (HTTPException 400 "text is required"), t).
Proof.
  intros Hv.
  assert (Hp : payload_of (Some v) = PDict []).
  { apply payload_falsy. repeat (apply elem_of_cons in Hv as [->|Hv]; [done|]).
    by apply elem_of_nil in Hv. }
  split; [done|].
  rewrite (create_message_empty_text _ _ _ (Some v) _ _ []) by done.
  by rewrite (create_message_empty_text _ _ _ None _ _ []).
Qed.

Lemma falsy_body_as_absent_witness :
  payload_of (Some (PInt 0)) = PDict [] ∧
  create_message None "01B" 2000 (Some (PInt 0)) "lobby" lobby_table
  = create_message None "01B" 2000 None "lobby" lobby_table ∧
  create_message None "01B" 2000 (Some (PInt 0)) "lobby" lobby_table
  = (Raise (HTTPException 400 "text is required"), lobby_table).
Proof.
  apply (falsy_body_as_absent None "01B" 2000 (PInt 0) "lobby" lobby_table).
  set_solver.
Defined.

(** C3: the input of a create request is normalized first.  A request
    without a body has the empty object as payload; a record that is
    created carries [user] as the string of the body's value (or
    "anonymous" when the key is absent) cut to 64 characters and [text] as
    the string of the body's value cut to 4096 characters, and is stored
    as returned; nothing a run stores has a longer [user] or [text]. *)
Theorem create_normalizes_input fault new_ulid now_ms data (room : string) (t : Table) :
  payload_of None = PDict [] ∧
  (∀ m status t',
     create_message fault new_ulid now_ms data room t = (Ok (JsonItem m, status), t') →
     ∃ d, payload_of data = PDict d ∧
          user m = slice_to 64 (py_str (from_option id (PStr "anonymous")
                                          (dict_lookup d "user"))) ∧
          text m = slice_to 4096 (py_str (from_option id (PStr EmptyString)
                                            (dict_lookup d "text"))) ∧
          (dict_lookup d "user" = None → user m = "anonymous") ∧
          t' !! (room_id m, msg_id m) = Some (item_attrs m)) ∧
  (∀ k a,
     (create_message fault new_ulid now_ms data room t).2 !! k = Some a →
     t !! k = Some a ∨
     (String.length (attr_user a) ≤ 64 ∧ String.length (attr_text a) ≤ 4096)%nat).
Proof.
  split; [done|]. split.
  - intros m status t' (d & Hd & _ & _ & _ & -> & _ & ->)%create_message_ok.
    exists d. simpl. repeat split; try done.
    + unfold user_of. by intros ->.
    + apply lookup_insert_eq.
  - intros k a.
    destruct (create_message_table fault new_ulid now_ms data room t)
      as [->|(d & _ & _ & _ & _ & ->)]; [by left|].
    simpl. rewrite lookup_insert. case_decide as Hk; [|by left].
    intros [= <-]. right. simpl.
    split; [apply user_of_length|apply text_of_length].
Qed.

Lemma create_normalizes_input_witness :
  ∃ d, payload_of alice_hi = PDict d ∧
       "alice" = slice_to 64 (py_str (from_option id (PStr "anonymous")
                                        (dict_lookup d "user"))) ∧
       "hi" = slice_to 4096 (py_str (from_option id (PStr EmptyString)
                                       (dict_lookup d "text"))) ∧
       (dict_lookup d "user" = None → "alice" = "anonymous") ∧
       (<[("lobby", "01A") := alice_attrs]> (∅ : Table)) !! ("lobby", "01A")
       = Some alice_attrs.
Proof.
  apply (proj1 (proj2 (create_normalizes_input None "01A" 1000 alice_hi "lobby" ∅))
           {| room_id := "lobby"; msg_id := "01A"; ts := 1000;
              user := "alice"; text := "hi" |} 201).
  reflexivity.
Defined.

(** C10: when the body has the key [user] with value null, the record
    that is created and stored has [user] "None"; "anonymous" stands only
    for a body without the key, and any value under the key is stored as
    its [str()], cut to 64 characters. *)
Theorem null_user_stored_as_None fault new_ulid now_ms data (room : string)
    (t t' : Table) d m status :
  payload_of data = PDict d →
  create_message fault new_ulid now_ms data room t = (Ok (JsonItem m, status), t') →
  (dict_lookup d "user" = Some PNone →
     user m = "None" ∧ attr_user <$> t' !! (room, msg_id m) = Some "None") ∧
  (∀ v, dict_lookup d "user" = Some v →
     user m = slice_to 64 (py_str v) ∧
     attr_user <$> t' !! (room, msg_id m) = Some (slice_to 64 (py_str v))) ∧
  (dict_lookup d "user" = None → user m = "anonymous").
Proof.
  intros Hd (d' & Hd' & _ & _ & _ & -> & _ & ->)%create_message_ok.
  assert (d' = d) as -> by congruence.
  simpl. rewrite lookup_insert_eq. simpl.
  unfold user_of. repeat split; by intros; simplify_option_eq.
Qed.

Lemma null_user_stored_as_None_witness :
  "None" = "None" ∧
  attr_user <$>
    (<[("lobby", "01B") := {| attr_ts := 2000; attr_user := "None"; attr_text := "hi" |}]>
       lobby_table) !! ("lobby", "01B") = Some "None".
Proof.
  apply (proj1 (null_user_stored_as_None None "01B" 2000 null_user_hi "lobby"
                  lobby_table _ [("user", PNone); ("text", PStr "hi")]
                  {| room_id := "lobby"; msg_id := "01B"; ts := 2000;
                     user := "None"; text := "hi" |} 201 eq_refl eq_refl)).
  reflexivity.
Defined.

(** C6: a create request with text, served by the backend, stores under
    the key (room of the path, generated id) the record with the generated
    id, the clock reading, and the normalized user and text, and answers
    201 with that record; the write is conditional: when the key is
    already held the table is left as it was and the answer is 500. *)
Theorem create_stores_and_returns_record new_ulid now_ms data (room : string) (t : Table) d :
  payload_of data = PDict d →
  text_of d ≠ EmptyString →
  let item := {| room_id := room; msg_id := new_ulid; ts := now_ms;
                 user := user_of d; text := text_of d |} in
  (t !! (room, new_ulid) = None →
     create_message None new_ulid now_ms data room t
     = (Ok (JsonItem item, 201), <[(room, new_ulid) := item_attrs item]> t)) ∧
  (is_Some (t !! (room, new_ulid)) →
     create_message None new_ulid now_ms data room t
     = (Raise (HTTPException 500 "The conditional request failed"), t)).
Proof.
  intros Hd Htext item.
  rewrite (create_message_stored _ _ _ _ _ _ d) by done.
  split.
  - by intros ->.
  - by intros [a ->].
Qed.

Lemma create_stores_and_returns_record_witness :
  create_message None "01B" 2000 alice_hi "lobby" lobby_table
  = (Ok (JsonItem {| room_id := "lobby"; msg_id := "01B"; ts := 2000;
                     user := "alice"; text := "hi" |}, 201),
     <[("lobby", "01B") := {| attr_ts := 2000; attr_user := "alice"; attr_text := "hi" |}]>
       lobby_table).
Proof.
  apply (create_stores_and_returns_record "01B" 2000 alice_hi "lobby" lobby_table
           [("user", PStr "alice"); ("text", PStr "hi")]);
    [reflexivity|discriminate|reflexivity].
Defined.

(** ** The delete handler *)

Lemma delete_message_run fault room id t :
  delete_message fault room id t
  = match fault with
    | Some (code, message) =>
        (Raise (if String.eqb code "ConditionalCheckFailedException"
                then HTTPException 404 "message not found"
                else HTTPException 500 message), t)
    | None =>
        match t !! (room, id) with
        | Some _ => (Ok (Text EmptyString, 204), delete (room, id) t)
        | None => (Raise (HTTPException 404 "message not found"), t)
        end
    end.
Proof.
  unfold delete_message, try_except_ClientError, bind, delete_item, backend, raise.
  destruct fault as [[code message]|].
  - by destruct (String.eqb code _).
  - by destruct (t !! (room, id)).
Qed.

(** C2: a delete served by the backend removes a record that exists and
    answers 204 with an empty body; it answers 404 "message not found"
    when the record does not exist, the table unchanged; a backend failure
    other than the failed condition gives 500 with the backend's message.
    After a create that answered with a record, the delete of its key
    succeeds, brings the table back, and a second delete answers 404. *)
Theorem delete_message_outcomes room id t :
  (is_Some (t !! (room, id)) →
     delete_message None room id t = (Ok (Text EmptyString, 204), delete (room, id) t) ∧
     delete (room, id) t !! (room, id) = None) ∧
  (t !! (room, id) = None →
     delete_message None room id t = (Raise (HTTPException 404 "message not found"), t)) ∧
  (∀ code message, code ≠ "ConditionalCheckFailedException" →
     delete_message (Some (code, message)) room id t
     = (Raise (HTTPException 500 message), t)) ∧
  (∀ fault new_ulid now_ms data m status t1,
     create_message fault new_ulid now_ms data room t = (Ok (JsonItem m, status), t1) →
     delete_message None room (msg_id m) t1 = (Ok (Text EmptyString, 204), t) ∧
     delete_message None room (msg_id m) t
     = (Raise (HTTPException 404 "message not found"), t)).
Proof.
  split; [|split; [|split]].
  - intros [a Ha]. rewrite delete_message_run, Ha.
    split; [done|apply lookup_delete_eq].
  - intros Hnone. by rewrite delete_message_run, Hnone.
  - intros code message Hcode. rewrite delete_message_run.
    by apply String.eqb_neq in Hcode as ->.
  - intros fault new_ulid now_ms data m status t1
      (d & _ & _ & _ & Hfree & -> & _ & ->)%create_message_ok.
    rewrite !delete_message_run. simpl.
    by rewrite lookup_insert_eq, delete_insert_id, Hfree.
Qed.

Lemma delete_message_outcomes_witness :
  (delete_message None "lobby" "01A" lobby_table
   = (Ok (Text EmptyString, 204), delete ("lobby", "01A") lobby_table) ∧
   delete ("lobby", "01A") lobby_table !! ("lobby", "01A") = None) ∧
  (delete_message None "lobby" "01B"
     (<[("lobby", "01B") := {| attr_ts := 2000; attr_user := "alice"; attr_text := "hi" |}]>
        lobby_table)
   = (Ok (Text EmptyString, 204), lobby_table) ∧
   delete_message None "lobby" "01B" lobby_table
   = (Raise (HTTPException 404 "message not found"), lobby_table)).
Proof.
  split.
  - apply (proj1 (delete_message_outcomes "lobby" "01A" lobby_table)).
    by exists alice_attrs.
  - apply (proj2 (proj2 (proj2 (delete_message_outcomes "lobby" "01A" lobby_table)))
             None "01B" 2000 alice_hi
             {| room_id := "lobby"; msg_id := "01B"; ts := 2000;
                user := "alice"; text := "hi" |} 201).
    reflexivity.
Defined.

(** ** Reading a decimal literal *)

Section decimal.

Lemma py_int_raise s e : py_int s = Raise e → e = ValueError.
Proof. unfold py_int. intros H. repeat case_match; congruence. Qed.

(** White space is no part of a literal. *)
Lemma is_space_other c :
  is_space c = true →
  is_digit c = false ∧ Ascii.eqb c "_" = false ∧
  Ascii.eqb c "+" = false ∧ Ascii.eqb c "-" = false.
Proof. destruct c as [[] [] [] [] [] [] [] []]; vm_compute; intuition congruence. Qed.

Lemma is_digit_other c :
  is_digit c = true →
  is_space c = false ∧ Ascii.eqb c "+" = false ∧ Ascii.eqb c "-" = false.
Proof. destruct c as [[] [] [] [] [] [] [] []]; vm_compute; intuition congruence. Qed.

Lemma lstrip_pad pad s : only_space pad = true → lstrip (pad +:+ s) = lstrip s.
Proof.
  induction pad as [|c pad IH]; simpl; [done|].
  intros [-> ?]%andb_prop. by apply IH.
Qed.

Lemma digits_pad pad : only_space pad = true → digits pad true = Some Nil.
Proof.
  destruct pad as [|c pad]; [done|]. intros Hpad.
  pose proof Hpad as [Hc _]%andb_prop.
  apply is_space_other in Hc as (Hd & Hu & _).
  cbn [digits]. rewrite Hd, Hu. by rewrite Hpad.
Qed.

Lemma is_digit_not_underscore c : is_digit c = true → Ascii.eqb c "_" = false.
Proof. destruct c as [[] [] [] [] [] [] [] []]; vm_compute; congruence. Qed.

Lemma digit_groups_head body :
  digit_groups body → ∃ c tail, body = String c tail ∧ is_digit c = true.
Proof. destruct 1; by eexists _, _. Qed.

(** The reader's digits of a literal are those of the literal without
    its underscores. *)
Lemma digits_groups body pad b :
  digit_groups body →
  only_space pad = true →
  digits (body +:+ pad) b = NilEmpty.uint_of_string (strip_underscores body).
Proof.
  intros Hbody Hpad. revert b.
  induction Hbody as [c Hc|c s Hc Hs IH|c s Hc Hs IH]; intros b.
  - change (String c EmptyString +:+ pad) with (String c pad).
    cbn [digits strip_underscores NilEmpty.uint_of_string].
    by rewrite Hc, (is_digit_not_underscore c Hc), digits_pad.
  - change (String c s +:+ pad) with (String c (s +:+ pad)).
    cbn [digits strip_underscores]. rewrite Hc, (is_digit_not_underscore c Hc).
    cbn [NilEmpty.uint_of_string]. by rewrite IH.
  - change (String c (String "_" s) +:+ pad) with (String c (String "_" (s +:+ pad))).
    assert (Hstrip : strip_underscores (String c (String "_" s))
                     = String c (strip_underscores s)).
    { cbn [strip_underscores]. by rewrite (is_digit_not_underscore c Hc). }
    rewrite Hstrip. cbn [NilEmpty.uint_of_string]. rewrite <-(IH false).
    destruct (digit_groups_head s Hs) as (c' & tail & -> & Hc').
    change (String c' tail +:+ pad) with (String c' (tail +:+ pad)).
    remember (String c' (tail +:+ pad)) as rest eqn:Hrest.
    cbn [digits]. rewrite Hc.
    change (is_digit "_") with false. cbv iota.
    change (Ascii.eqb "_" "_") with true. cbv iota.
    rewrite Hrest at 1. by rewrite Hc'.
Qed.

(** What [limit_reads] admits, the handler's reader reads as that number. *)
Lemma limit_reads_py_int (limit : option string) n :
  limit_reads limit n → py_int (args_get_limit limit) = Ok n ∧ 0 < n.
Proof.
  destruct limit as [s|]; simpl; [|intros ->; split; [done|lia]].
  intros (pad1 & sign & body & pad2 & u & Hp1 & Hp2 & Hsign & Hbody & -> & Hu & Hlen & -> & Hn).
  split; [|done].
  assert (Hcap : (int_max_str_digits <? nb_digits u)%nat = false).
  { apply Nat.ltb_ge. unfold int_max_str_digits. lia. }
  unfold py_int. rewrite lstrip_pad by done.
  destruct Hsign as [->| ->].
  - change (EmptyString +:+ ?x) with x.
    destruct (digit_groups_head body Hbody) as (c & tail & Hhead & Hc).
    apply is_digit_other in Hc as (Hspace & Hplus & Hminus).
    rewrite Hhead. change (String c tail +:+ pad2) with (String c (tail +:+ pad2)).
    cbn [lstrip]. rewrite Hspace, Hplus, Hminus.
    change (String c (tail +:+ pad2)) with (String c tail +:+ pad2). rewrite <-Hhead.
    rewrite (digits_groups body pad2 false Hbody Hp2), Hu. by rewrite Hcap.
  - change ("+" +:+ ?x) with (String "+" x).
    cbn [lstrip]. change (is_space "+") with false. cbv iota.
    change (Ascii.eqb "+" "+") with true. cbv iota.
    rewrite (digits_groups body pad2 false Hbody Hp2), Hu. by rewrite Hcap.
Qed.

Lemma string_of_uint_length u : String.length (NilEmpty.string_of_uint u) = nb_digits u.
Proof. induction u; simpl; by rewrite ?IHu. Qed.

Lemma string_of_uint_groups u : u ≠ Nil → digit_groups (NilEmpty.string_of_uint u).
Proof.
  assert (H : u = Nil ∨ digit_groups (NilEmpty.string_of_uint u)); [|by destruct H].
  induction u as [|u IH|u IH|u IH|u IH|u IH|u IH|u IH|u IH|u IH|u IH]; [by left|..];
    right; simpl; (destruct IH as [->|IH]; [by apply groups_last|by apply groups_digit]).
Qed.

Lemma string_of_uint_no_underscore u :
  strip_underscores (NilEmpty.string_of_uint u) = NilEmpty.string_of_uint u.
Proof. induction u; simpl; by rewrite ?IHu. Qed.

(** The writing of a positive number has digits, no sign. *)
Lemma str_int_positive n :
  0 < n →
  ∃ u, u ≠ Nil ∧ str_int n = NilEmpty.string_of_uint u ∧ Z.of_uint u = n.
Proof.
  intros Hn. destruct n as [|p|p]; try lia.
  pose proof (DecimalZ.of_to (Z.pos p)) as Hp.
  unfold str_int. simpl in *.
  destruct (Pos.to_uint p) as [|u|u|u|u|u|u|u|u|u|u] eqn:Hu; [done|..];
    by eexists; split; [|split; [reflexivity|]].
Qed.

(** The decimal writing of a positive number within the cap, with white
    space around it, is a limit the specification admits. *)
Lemma limit_reads_str_int n pad1 pad2 :
  0 < n →
  (String.length (str_int n) ≤ 4300)%nat →
  only_space pad1 = true →
  only_space pad2 = true →
  limit_reads (Some (pad1 +:+ str_int n +:+ pad2)) n.
Proof.
  intros Hn Hlen Hp1 Hp2.
  destruct (str_int_positive n Hn) as (u & Hu & Hstr & Hval).
  rewrite Hstr in *. rewrite string_of_uint_length in Hlen.
  exists pad1, EmptyString, (NilEmpty.string_of_uint u), pad2, u.
  split; [done|]. split; [done|]. split; [by left|].
  split; [by apply string_of_uint_groups|]. split; [done|].
  split; [by rewrite string_of_uint_no_underscore, NilEmpty.usu|].
  split; [done|]. split; [done|lia].
Qed.

End decimal.

(** ** The list handler *)

Section list_handler.

Lemma list_messages_run fault limit room t :
  list_messages fault limit room t
  = (match py_int (args_get_limit limit) with
     | Raise e => Raise e
     | Ok n =>
         if n <? 1 then Raise ParamValidationError
         else match fault with
              | Some (_, message) => Raise (HTTPException 500 message)
              | None => Ok (JsonItems (take (Z.to_nat n) (partition_items t room)), 200)
              end
     end, t).
Proof.
  unfold list_messages, try_except_ClientError, bind, lift, query, backend, raise.
  destruct (py_int (args_get_limit limit)) as [n|e] eqn:Hn.
  - destruct (n <? 1); [done|]. by destruct fault as [[code message]|].
  - by rewrite (py_int_raise _ _ Hn).
Qed.

(** The run for a limit the specification admits. *)
Lemma list_messages_reads fault limit room t n :
  limit_reads limit n →
  list_messages fault limit room t
  = (match fault with
     | Some (_, message) => Raise (HTTPException 500 message)
     | None => Ok (JsonItems (take (Z.to_nat n) (partition_items t room)), 200)
     end, t).
Proof.
  intros [Hn Hpos]%limit_reads_py_int. rewrite list_messages_run, Hn.
  by destruct (Z.ltb_spec n 1); [lia|].
Qed.

(** The handler never writes. *)
Lemma list_messages_read_only fault limit room t :
  (list_messages fault limit room t).2 = t.
Proof. by rewrite list_messages_run. Qed.

Lemma StronglySorted_take {A} (R : relation A) (l : list A) k :
  StronglySorted R l → StronglySorted R (take k l).
Proof.
  intros Hl. rewrite <-(take_drop k l) in Hl.
  by apply StronglySorted_app_1_l in Hl.
Qed.

(** A put under a free key adds one item to the scan of its room. *)
Lemma partition_items_insert t m :
  t !! item_key m = None →
  partition_items (<[item_key m := item_attrs m]> t) (room_id m)
  ≡ₚ m :: partition_items t (room_id m).
Proof.
  intros Hfree. apply NoDup_Permutation.
  - apply NoDup_partition_items.
  - apply NoDup_cons. split; [|apply NoDup_partition_items].
    rewrite elem_of_partition_items. intros [_ H]. congruence.
  - intros x. rewrite elem_of_cons, !elem_of_partition_items.
    rewrite lookup_insert. case_decide as Hk.
    + split.
      * intros [_ [= Ha]]. left. destruct x, m.
        unfold item_key, item_attrs in *. by simplify_eq/=.
      * intros [->|[_ H]]; [done|]. rewrite <-Hk in H. congruence.
    + split; [by right|]. intros [->|?]; [done|done].
Qed.

(** A put in one room leaves the scan of another as it was. *)
Lemma partition_items_insert_other t k a room :
  k.1 ≠ room →
  partition_items (<[k := a]> t) room = partition_items t room.
Proof.
  intros Hk. apply partition_items_ext. intros id.
  apply lookup_insert_ne. by intros ->.
Qed.

End list_handler.

(** C5: a list served by the backend, with the limit its argument
    writes (50 without one), answers 200 with the messages stored for
    the room, ascending by [msg_id], cut to the first [limit] of them;
    an empty room gives the empty list; the handler never changes the
    table. *)
Theorem list_messages_sorted_page limit room t n :
  limit_reads limit n →
  ∃ full items,
    list_messages None limit room t = (Ok (JsonItems items, 200), t) ∧
    (∀ m, m ∈ full ↔
          room_id m = room ∧ t !! (room_id m, msg_id m) = Some (item_attrs m)) ∧
    StronglySorted msg_lt full ∧
    items = take (Z.to_nat n) full ∧
    StronglySorted msg_lt items ∧
    Z.of_nat (List.length items) ≤ n ∧
    ((∀ id, t !! (room, id) = None) → items = []) ∧
    (∀ fault' limit', (list_messages fault' limit' room t).2 = t).
Proof.
  intros Hreads. pose proof (limit_reads_py_int _ _ Hreads) as [_ Hpos].
  exists (partition_items t room), (take (Z.to_nat n) (partition_items t room)).
  split; [|split; [|split; [|split; [|split; [|split; [|split]]]]]].
  - by rewrite (list_messages_reads None limit room t n).
  - intros m. apply elem_of_partition_items.
  - apply partition_items_sorted.
  - done.
  - apply StronglySorted_take, partition_items_sorted.
  - rewrite length_take. lia.
  - intros Hnone. by rewrite partition_items_empty, take_nil.
  - intros fault' limit'. apply list_messages_read_only.
Qed.

Lemma list_messages_sorted_page_witness :
  ∃ full items,
    list_messages None (Some " 1") "lobby" lobby_table
    = (Ok (JsonItems items, 200), lobby_table) ∧
    (∀ m, m ∈ full ↔
          room_id m = "lobby" ∧
          lobby_table !! (room_id m, msg_id m) = Some (item_attrs m)) ∧
    StronglySorted msg_lt full ∧
    items = take (Z.to_nat 1) full ∧
    StronglySorted msg_lt items ∧
    Z.of_nat (List.length items) ≤ 1 ∧
    ((∀ id, lobby_table !! ("lobby", id) = None) → items = []) ∧
    (∀ fault' limit', (list_messages fault' limit' "lobby" lobby_table).2 = lobby_table).
Proof.
  apply (list_messages_sorted_page (Some " 1") "lobby" lobby_table 1).
  apply (limit_reads_str_int 1 " " EmptyString); [lia|simpl; lia|reflexivity|reflexivity].
Defined.

(** C7: rooms do not mix.  For two distinct rooms A and B, a create in
    room A changes no key of room B, a list of room B answers after it as
    it did before, every record of that answer has room B, and the record
    created in room A is not among them. *)
Theorem rooms_do_not_mix fault new_ulid now_ms data roomA roomB t fault' limit :
  roomA ≠ roomB →
  (∀ id, (create_message fault new_ulid now_ms data roomA t).2 !! (roomB, id)
         = t !! (roomB, id)) ∧
  (list_messages fault' limit roomB (create_message fault new_ulid now_ms data roomA t).2).1
  = (list_messages fault' limit roomB t).1 ∧
  (∀ items status,
     (list_messages fault' limit roomB
        (create_message fault new_ulid now_ms data roomA t).2).1
     = Ok (JsonItems items, status) →
     (∀ m, m ∈ items → room_id m = roomB) ∧
     (∀ m status', (create_message fault new_ulid now_ms data roomA t).1
                   = Ok (JsonItem m, status') → m ∉ items)).
Proof.
  intros Hne.
  assert (Hroom : ∀ t' items status,
            (list_messages fault' limit roomB t').1 = Ok (JsonItems items, status) →
            ∀ m, m ∈ items → room_id m = roomB).
  { intros t' items status. rewrite list_messages_run. simpl.
    destruct (py_int _) as [n|]; [|done]. destruct (n <? 1); [done|].
    destruct fault' as [[??]|]; [done|]. intros [= <- _] m Hm.
    apply subseteq_take in Hm. by apply elem_of_partition_items in Hm as [? _]. }
  pose proof (create_message_table fault new_ulid now_ms data roomA t) as Htable.
  destruct (create_message fault new_ulid now_ms data roomA t) as [r t1] eqn:Hrun.
  simpl in *.
  assert (Ht1 : ∀ id, t1 !! (roomB, id) = t !! (roomB, id)).
  { destruct Htable as [->|(d & _ & _ & _ & _ & [= _ ->])]; [done|].
    intros id. apply lookup_insert_ne. congruence. }
  split; [done|]. split.
  { rewrite !list_messages_run. simpl.
    by rewrite (partition_items_ext t1 t roomB). }
  intros items status Hlist. split; [by eapply Hroom|].
  intros m status' ->.
  apply create_message_ok in Hrun as (d & _ & _ & _ & _ & -> & _).
  intros Hin. by apply (Hroom _ _ _ Hlist) in Hin.
Qed.

Lemma rooms_do_not_mix_witness :
  (list_messages None None "lobby"
     (create_message None "01B" 2000 alice_hi "kitchen" lobby_table).2).1
  = (list_messages None None "lobby" lobby_table).1.
Proof.
  apply (rooms_do_not_mix None "01B" 2000 alice_hi "kitchen" "lobby" lobby_table None None).
  discriminate.
Defined.

(** C8: a [limit] argument that is a decimal literal of a positive
    integer (white space around it, a plus sign and single underscores
    between digits allowed, at most 4300 digits, the cap of [int()])
    never fails the handler's [int()]: the scan is asked for exactly that
    many items, with no cap of the handler's own, so a limit that covers
    the room returns all of it.  Without the argument the limit is 50,
    and every positive integer within the cap can be asked for by its
    decimal writing. *)
Theorem limit_parse_total fault room t :
  (∀ limit n,
     limit_reads limit n →
     0 < n ∧
     list_messages fault limit room t
     = try_except_ClientError
         (items <- query fault room n;; ret (JsonItems items, 200))
         (λ _ message, abort 500 message) t ∧
     (list_messages fault limit room t).1 ≠ Raise ValueError ∧
     (fault = None →
        list_messages fault limit room t
        = (Ok (JsonItems (take (Z.to_nat n) (partition_items t room)), 200), t)) ∧
     (fault = None → Z.of_nat (List.length (partition_items t room)) ≤ n →
        list_messages fault limit room t
        = (Ok (JsonItems (partition_items t room), 200), t))) ∧
  list_messages None None room t
  = (Ok (JsonItems (take 50 (partition_items t room)), 200), t) ∧
  (∀ n pad1 pad2,
     0 < n → (String.length (str_int n) ≤ 4300)%nat →
     only_space pad1 = true → only_space pad2 = true →
     list_messages None (Some (pad1 +:+ str_int n +:+ pad2)) room t
     = (Ok (JsonItems (take (Z.to_nat n) (partition_items t room)), 200), t)).
Proof.
  split; [|split].
  - intros limit n Hreads.
    pose proof (limit_reads_py_int _ _ Hreads) as [Hn Hpos].
    assert (Hlt : (n <? 1) = false) by (apply Z.ltb_ge; lia).
    split; [done|]. split; [|split; [|split]].
    + unfold list_messages, try_except_ClientError, bind at 1, lift. by rewrite Hn.
    + rewrite list_messages_run, Hn, Hlt. simpl. by destruct fault as [[??]|].
    + intros ->. by rewrite list_messages_run, Hn, Hlt.
    + intros -> Hlen. rewrite list_messages_run, Hn, Hlt.
      rewrite take_ge; [done|lia].
  - by rewrite (list_messages_reads None None room t 50).
  - intros n pad1 pad2 Hn Hlen Hp1 Hp2.
    apply (list_messages_reads None _ room t n).
    by apply limit_reads_str_int.
Qed.

Lemma limit_parse_total_witness :
  list_messages None (Some " +1_0 ") "lobby" lobby_table
  = (Ok (JsonItems (take (Z.to_nat 10) (partition_items lobby_table "lobby")), 200),
     lobby_table).
Proof.
  assert (Hreads : limit_reads (Some " +1_0 ") 10).
  { exists " ", "+", "1_0", " ", (D1 (D0 Nil)).
    split; [reflexivity|]. split; [reflexivity|]. split; [by right|].
    split; [by apply groups_underscore, groups_last|].
    split; [reflexivity|]. split; [reflexivity|].
    split; [simpl; lia|]. split; [reflexivity|lia]. }
  apply (proj1 (proj2 (proj2 (proj2 (proj1 (limit_parse_total None "lobby" lobby_table)
                                       (Some " +1_0 ") 10 Hreads))))).
  reflexivity.
Defined.

(** ** Create, then list *)

(** C1, as worded, fails where the room already holds the text: after a
    second "hi" in room lobby the list holds two records with it. *)
Lemma create_then_list_same_text_twice :
  ¬ create_then_list_one "01B" 2000 alice_hi "lobby" lobby_table.
Proof.
  intros Hone.
  destruct (Hone [("user", PStr "alice"); ("text", PStr "hi")] eq_refl)
    as (items & status & Hlist & Hlen); [discriminate|].
  vm_compute in Hlist. injection Hlist as <- <-.
  vm_compute in Hlen. discriminate.
Qed.

(** C1, amended: when a create answers with a record, the room held no
    record with that text before and fewer records than the limit of the
    list that follows, that list answers 200 with exactly one record of
    that text and room: the one created. *)
Theorem create_then_list_one_record fault new_ulid now_ms data room t m status t1 limit n :
  create_message fault new_ulid now_ms data room t = (Ok (JsonItem m, status), t1) →
  (∀ id a, t !! (room, id) = Some a → attr_text a ≠ text m) →
  limit_reads limit n →
  Z.of_nat (List.length (partition_items t room)) < n →
  ∃ items,
    list_messages None limit room t1 = (Ok (JsonItems items, 200), t1) ∧
    with_text room (text m) items = [m] ∧
    m ∈ items ∧ room_id m = room ∧ text m ≠ EmptyString.
Proof.
  intros (d & _ & Htext & _ & Hfree & Hm & _ & ->)%create_message_ok Hfresh
    [Hn _]%limit_reads_py_int Hlen.
  assert (Hroom : room_id m = room) by by rewrite Hm.
  assert (Hkey : item_key m = (room, new_ulid)) by by rewrite Hm.
  rewrite <-Hkey in *. clear Hkey. subst room.
  pose proof (partition_items_insert t m Hfree) as Hperm.
  exists (partition_items (<[item_key m := item_attrs m]> t) (room_id m)).
  split; [|split; [|split; [|split]]].
  - rewrite list_messages_run, Hn.
    destruct (Z.ltb_spec n 1); [lia|].
    rewrite take_ge; [done|].
    rewrite Hperm. simpl. lia.
  - apply Permutation_singleton_r. unfold with_text. rewrite Hperm.
    rewrite filter_cons_True by done. constructor.
    apply Permutation_nil_r, elem_of_nil_inv. intros x.
    rewrite list_elem_of_filter, elem_of_partition_items.
    intros [[Hx _] [Hr Hin]].
    unfold item_key in Hin. rewrite Hr in Hin.
    by apply (Hfresh _ _ Hin).
  - rewrite Hperm. by left.
  - done.
  - by rewrite Hm.
Qed.

Lemma create_then_list_one_record_witness :
  ∃ items,
    list_messages None None "lobby"
      (<[("lobby", "01B") := {| attr_ts := 2000; attr_user := "bob"; attr_text := "yo" |}]>
         lobby_table)
    = (Ok (JsonItems items, 200),
       <[("lobby", "01B") := {| attr_ts := 2000; attr_user := "bob"; attr_text := "yo" |}]>
         lobby_table) ∧
    with_text "lobby" "yo" items
    = [{| room_id := "lobby"; msg_id := "01B"; ts := 2000; user := "bob"; text := "yo" |}] ∧
    {| room_id := "lobby"; msg_id := "01B"; ts := 2000; user := "bob"; text := "yo" |}
      ∈ items ∧
    "lobby" = "lobby" ∧ "yo" ≠ EmptyString.
Proof.
  apply (create_then_list_one_record None "01B" 2000
           (Some (PDict [("user", PStr "bob"); ("text", PStr "yo")])) "lobby" lobby_table
           {| room_id := "lobby"; msg_id := "01B"; ts := 2000; user := "bob"; text := "yo" |}
           201 _ None 50).
  - reflexivity.
  - unfold lobby_table. intros id a [_ <-]%lookup_singleton_Some. discriminate.
  - reflexivity.
  - vm_compute. reflexivity.
Defined.


(** ** Further properties of the handlers *)

Section strings.

Lemma slice_to_nonempty (k : nat) s : s ≠ EmptyString → slice_to (S k) s ≠ EmptyString.
Proof. by destruct s. Qed.

(** A slice is a prefix; when the string is longer it has the full width. *)
Lemma slice_to_split (k : nat) s :
  ∃ rest, s = slice_to k s +:+ rest ∧
          ((k < String.length s)%nat →
           String.length (slice_to k s) = k ∧ rest ≠ EmptyString).
Proof.
  unfold slice_to. revert s. induction k as [|k IH]; intros [|c s]; simpl.
  - exists EmptyString. split; [done|]. simpl. lia.
  - exists (String c s). split; [done|]. by intros _.
  - exists EmptyString. split; [done|]. simpl. lia.
  - destruct (IH s) as (rest & Hs & Hlen). exists rest. split.
    + by rewrite Hs at 1.
    + intros Hlt. destruct Hlen as [-> ?]; [lia|done].
Qed.

Lemma string_of_uint_nonempty u : NilZero.string_of_uint u ≠ EmptyString.
Proof. by destruct u. Qed.

Lemma str_int_nonempty n : str_int n ≠ EmptyString.
Proof.
  unfold str_int. destruct (Z.to_int n) as [u|u]; simpl; [|done].
  apply string_of_uint_nonempty.
Qed.

(** Only the empty string prints as nothing. *)
Lemma py_str_nonempty v :
  v ≠ PStr EmptyString → v ≠ PFloat EmptyString → py_str v ≠ EmptyString.
Proof.
  intros Hs Hf. destruct v as [|[]|n|r|s|l|d]; simpl; try done.
  - apply str_int_nonempty.
  - congruence.
  - congruence.
Qed.

End strings.

(** X1: a body that is truthy but not an object (a non-empty array or
    string, a non-zero number, true) has no [get]: the handler ends in an
    uncaught AttributeError before it validates or stores anything. *)
Theorem create_non_object_body fault new_ulid now_ms v room t :
  truthy v = true →
  (∀ d, v ≠ PDict d) →
  create_message fault new_ulid now_ms (Some v) room t = (Raise AttributeError, t).
Proof.
  intros Hv Hnd. apply create_message_not_dict.
  unfold payload_of, py_or, get_json. simpl. by rewrite Hv.
Qed.

Lemma create_non_object_body_witness :
  create_message None "01B" 2000 (Some (PList [PStr "hi"])) "lobby" lobby_table
  = (Raise AttributeError, lobby_table).
Proof.
  apply (create_non_object_body None "01B" 2000 (PList [PStr "hi"]) "lobby" lobby_table);
    [reflexivity|discriminate].
Defined.

(** X2: when the backend fails the put of a valid create, whatever the
    error code (the failed condition included), the handler answers 500
    with the backend's message and the table is left as it was. *)
Theorem create_backend_failure code message new_ulid now_ms data room t d :
  payload_of data = PDict d →
  text_of d ≠ EmptyString →
  create_message (Some (code, message)) new_ulid now_ms data room t
  = (Raise (HTTPException 500 message), t).
Proof. intros Hd Htext. by rewrite (create_message_stored _ _ _ _ _ _ d). Qed.

Lemma create_backend_failure_witness :
  create_message (Some ("ProvisionedThroughputExceededException", "slow down"))
    "01B" 2000 alice_hi "lobby" lobby_table
  = (Raise (HTTPException 500 "slow down"), lobby_table).
Proof.
  apply (create_backend_failure "ProvisionedThroughputExceededException" "slow down"
           "01B" 2000 alice_hi "lobby" lobby_table
           [("user", PStr "alice"); ("text", PStr "hi")]);
    [reflexivity|discriminate].
Defined.

(** X3: the validation rejects the empty string only.  Any other value
    under [text] (null, a number, a boolean, an array, an object, blank
    text) passes: its [str()], cut to 4096 characters, is stored as the
    text; null is stored as "None". *)
Theorem create_rejects_only_empty_text new_ulid now_ms data room t d v :
  payload_of data = PDict d →
  dict_lookup d "text" = Some v →
  v ≠ PStr EmptyString →
  v ≠ PFloat EmptyString →
  t !! (room, new_ulid) = None →
  ∃ m, create_message None new_ulid now_ms data room t
       = (Ok (JsonItem m, 201), <[(room, new_ulid) := item_attrs m]> t) ∧
       text m = slice_to 4096 (py_str v) ∧
       text m ≠ EmptyString ∧
       (v = PNone → text m = "None").
Proof.
  intros Hd Hv Hs Hf Hfree.
  assert (Htext : text_of d = slice_to 4096 (py_str v)) by (unfold text_of; by rewrite Hv).
  assert (Hne : text_of d ≠ EmptyString).
  { rewrite Htext. by apply slice_to_nonempty, py_str_nonempty. }
  exists (new_item new_ulid now_ms room d).
  rewrite (create_message_stored _ _ _ _ _ _ d), Hfree by done.
  simpl. split; [done|]. split; [done|]. split; [done|].
  intros ->. by rewrite Htext.
Qed.

Lemma create_rejects_only_empty_text_witness :
  ∃ m, create_message None "01B" 2000 null_text "lobby" lobby_table
       = (Ok (JsonItem m, 201), <[("lobby", "01B") := item_attrs m]> lobby_table) ∧
       text m = slice_to 4096 (py_str PNone) ∧
       text m ≠ EmptyString ∧
       (PNone = PNone → text m = "None").
Proof.
  apply (create_rejects_only_empty_text "01B" 2000 null_text "lobby" lobby_table
           [("text", PNone)] PNone); (reflexivity || discriminate).
Defined.

(** X4: a user name of at most 64 characters (the empty one included:
    the user is never validated) and a non-empty text of at most 4096
    characters are stored and returned exactly as sent. *)
Theorem create_keeps_short_fields new_ulid now_ms data room t d (u s : string) :
  payload_of data = PDict d →
  dict_lookup d "user" = Some (PStr u) →
  dict_lookup d "text" = Some (PStr s) →
  (String.length u ≤ 64)%nat →
  (0 < String.length s ≤ 4096)%nat →
  t !! (room, new_ulid) = None →
  create_message None new_ulid now_ms data room t
  = (Ok (JsonItem {| room_id := room; msg_id := new_ulid; ts := now_ms;
                     user := u; text := s |}, 201),
     <[(room, new_ulid) := {| attr_ts := now_ms; attr_user := u; attr_text := s |}]> t).
Proof.
  intros Hd Hu Hs Hlu Hls Hfree.
  assert (Huser : user_of d = u).
  { unfold user_of. rewrite Hu. by apply slice_to_short. }
  assert (Htext : text_of d = s).
  { unfold text_of. rewrite Hs. apply slice_to_short. simpl. lia. }
  rewrite (create_message_stored _ _ _ _ _ _ d), Hfree.
  - unfold new_item, item_attrs. simpl. by rewrite Huser, Htext.
  - done.
  - rewrite Htext. intros ->. simpl in Hls. lia.
Qed.

Lemma create_keeps_short_fields_witness :
  create_message None "01B" 2000
    (Some (PDict [("user", PStr EmptyString); ("text", PStr " ")])) "lobby" lobby_table
  = (Ok (JsonItem {| room_id := "lobby"; msg_id := "01B"; ts := 2000;
                     user := EmptyString; text := " " |}, 201),
     <[("lobby", "01B") := {| attr_ts := 2000; attr_user := EmptyString; attr_text := " " |}]>
       lobby_table).
Proof.
  apply (create_keeps_short_fields "01B" 2000 _ "lobby" lobby_table
           [("user", PStr EmptyString); ("text", PStr " ")] EmptyString " ");
    try reflexivity; simpl; lia.
Defined.

(** X5: a user name longer than 64 characters is stored as its first 64
    characters, and a text longer than 4096 characters as its first 4096:
    the stored field has exactly the width of the limit and the sent
    string is the stored one followed by the part that was cut. *)
Theorem create_truncates_to_prefix new_ulid now_ms data room t d m status t' :
  payload_of data = PDict d →
  create_message None new_ulid now_ms data room t = (Ok (JsonItem m, status), t') →
  (∀ u, dict_lookup d "user" = Some (PStr u) → (64 < String.length u)%nat →
     ∃ rest, u = user m +:+ rest ∧ String.length (user m) = 64%nat ∧ rest ≠ EmptyString) ∧
  (∀ s, dict_lookup d "text" = Some (PStr s) → (4096 < String.length s)%nat →
     ∃ rest, s = text m +:+ rest ∧ String.length (text m) = 4096%nat ∧ rest ≠ EmptyString).
Proof.
  intros Hd (d' & Hd' & _ & _ & _ & -> & _ & ->)%create_message_ok.
  assert (d' = d) as -> by congruence. simpl.
  split.
  - intros u Hu Hlen. unfold user_of. rewrite Hu. simpl.
    destruct (slice_to_split 64 u) as (rest & Hsplit & Hfull).
    exists rest. split; [done|]. by apply Hfull.
  - intros s Hs Hlen. unfold text_of. rewrite Hs. simpl.
    destruct (slice_to_split 4096 s) as (rest & Hsplit & Hfull).
    exists rest. split; [done|]. by apply Hfull.
Qed.

Lemma create_truncates_to_prefix_witness :
  ∃ rest,
    long_name = "0123456789012345678901234567890123456789012345678901234567890123" +:+ rest ∧
    String.length "0123456789012345678901234567890123456789012345678901234567890123"
    = 64%nat ∧
    rest ≠ EmptyString.
Proof.
  apply (proj1 (create_truncates_to_prefix "01B" 2000 long_name_hi "lobby" lobby_table
                  [("user", PStr long_name); ("text", PStr "hi")]
                  {| room_id := "lobby"; msg_id := "01B"; ts := 2000;
                     user := "0123456789012345678901234567890123456789012345678901234567890123";
                     text := "hi" |} 201 _ eq_refl eq_refl) long_name eq_refl).
  vm_compute. lia.
Defined.

(** X6: create never changes or removes a record the table holds:
    whatever the request and however the run ends, every key keeps the
    attributes it had. *)
Theorem create_preserves_existing fault new_ulid now_ms data room t k a :
  t !! k = Some a →
  (create_message fault new_ulid now_ms data room t).2 !! k = Some a.
Proof.
  intros Hk.
  destruct (create_message_table fault new_ulid now_ms data room t)
    as [->|(d & _ & _ & _ & Hfree & ->)]; [done|].
  simpl. rewrite lookup_insert_ne; [done|]. intros <-. congruence.
Qed.

Lemma create_preserves_existing_witness :
  (create_message None "01B" 2000 alice_hi "lobby" lobby_table).2 !! ("lobby", "01A")
  = Some alice_attrs.
Proof.
  apply (create_preserves_existing None "01B" 2000 alice_hi "lobby" lobby_table).
  reflexivity.
Defined.

(** ** Limits that are not numbers *)

Section bad_limit.

Lemma only_space_foreign s : has_foreign_char s = true → only_space s = false.
Proof.
  induction s as [|c s IH]; simpl; [done|].
  unfold literal_char. destruct (is_space c); simpl; [|done].
  rewrite orb_true_r. simpl. intros H. by rewrite IH.
Qed.

Lemma digits_foreign s b : has_foreign_char s = true → digits s b = None.
Proof.
  revert b. induction s as [|c s IH]; intros b; simpl; [done|].
  unfold literal_char.
  destruct (is_digit c) eqn:Hd; simpl.
  { intros H. by rewrite IH. }
  destruct (Ascii.eqb c "_") eqn:Hu.
  { rewrite orb_true_r. simpl. intros H. destruct b; [|done].
    destruct s as [|c' s']; [done|]. destruct (is_digit c'); [|done]. by apply IH. }
  destruct (is_space c) eqn:Hs; simpl.
  { intros H. by rewrite (only_space_foreign _ H), andb_false_r. }
  intros _. by rewrite andb_false_r.
Qed.

Lemma digits_blank s : only_space s = true → digits s false = None.
Proof.
  destruct s as [|c s]; simpl; [done|]. intros [Hc _]%andb_prop.
  apply is_space_other in Hc as (-> & -> & _). done.
Qed.

Lemma lstrip_foreign s : has_foreign_char (lstrip s) = has_foreign_char s.
Proof.
  induction s as [|c s IH]; simpl; [done|].
  destruct (is_space c) eqn:Hs; [|done].
  rewrite IH. unfold literal_char. rewrite Hs. simpl. by rewrite orb_true_r.
Qed.

Lemma lstrip_blank s : only_space s = true → lstrip s = EmptyString.
Proof.
  induction s as [|c s IH]; simpl; [done|].
  intros [-> ?]%andb_prop. by apply IH.
Qed.

(** The sign of a literal is its first character, if any. *)
Lemma py_int_sign s :
  ∃ body,
    (digits body false = None → py_int s = Raise ValueError) ∧
    (body = lstrip s ∨
     ∃ c, literal_char c = true ∧ lstrip s = String c body).
Proof.
  unfold py_int. destruct (lstrip s) as [|c rest].
  { exists EmptyString. split; [by intros ->|by left]. }
  destruct (Ascii.eqb_spec c "+") as [->|_].
  { exists rest. split; [by intros ->|]. right. by exists "+"%char. }
  destruct (Ascii.eqb_spec c "-") as [->|_].
  { exists rest. split; [by intros ->|]. right. by exists "-"%char. }
  exists (String c rest). split; [by intros ->|by left].
Qed.

Lemma py_int_foreign s : has_foreign_char s = true → py_int s = Raise ValueError.
Proof.
  intros Hs. rewrite <-lstrip_foreign in Hs.
  destruct (py_int_sign s) as (body & Hnone & [->|(c & Hc & Hbody)]).
  - by apply Hnone, digits_foreign.
  - rewrite Hbody in Hs. simpl in Hs. rewrite Hc in Hs. simpl in Hs.
    by apply Hnone, digits_foreign.
Qed.

Lemma py_int_blank s : only_space s = true → py_int s = Raise ValueError.
Proof.
  intros Hs. unfold py_int. by rewrite (lstrip_blank s Hs).
Qed.

End bad_limit.

(** X7: a [limit] argument that is blank or holds a character no decimal
    literal can hold (a letter, a point, a comma) makes [int()] raise a
    ValueError that the handler does not catch: nothing is asked of the
    backend, the table is untouched and no 500 with a message is built. *)
Theorem list_bad_limit_uncaught fault (s : string) room t :
  has_foreign_char s = true ∨ only_space s = true →
  list_messages fault (Some s) room t = (Raise ValueError, t).
Proof.
  intros Hs. rewrite list_messages_run. simpl.
  by destruct Hs as [Hs|Hs]; [rewrite py_int_foreign|rewrite py_int_blank].
Qed.

Lemma list_bad_limit_uncaught_witness :
  list_messages (Some ("InternalServerError", "down")) (Some "1.5") "lobby" lobby_table
  = (Raise ValueError, lobby_table).
Proof.
  apply (list_bad_limit_uncaught (Some ("InternalServerError", "down")) "1.5"
           "lobby" lobby_table).
  left. reflexivity.
Defined.

(** X8: when the backend fails the query of a list with a limit the
    specification admits, whatever the error code, the handler answers 500 with the
    backend's message; the failed condition is not mapped to 404 as the
    delete handler does. *)
Theorem list_backend_failure code message limit room t n :
  limit_reads limit n →
  list_messages (Some (code, message)) limit room t
  = (Raise (HTTPException 500 message), t).
Proof. intros Hreads. by rewrite (list_messages_reads _ limit room t n). Qed.

Lemma list_backend_failure_witness :
  list_messages (Some ("ConditionalCheckFailedException", "no")) None "lobby" lobby_table
  = (Raise (HTTPException 500 "no"), lobby_table).
Proof.
  apply (list_backend_failure "ConditionalCheckFailedException" "no" None
           "lobby" lobby_table 50).
  reflexivity.
Defined.

(** ** How the handlers compose *)

Section composition.

Lemma StronglySorted_filter {A} (R : relation A) (P : A → Prop)
    `{∀ x, Decision (P x)} (l : list A) :
  StronglySorted R l → StronglySorted R (filter P l).
Proof.
  induction 1 as [|x l Hl IH Hx]; [constructor|].
  destruct (decide (P x)).
  - rewrite filter_cons_True by done. constructor; [done|].
    apply Forall_forall. intros y [_ Hy]%list_elem_of_filter.
    rewrite Forall_forall in Hx. by apply Hx.
  - by rewrite filter_cons_False.
Qed.

(** Two ascending lists of records of one scan with the same members are
    the same list. *)
Lemma sorted_scan_unique t room (l : list Message) :
  StronglySorted msg_le l →
  l ≡ₚ partition_items t room →
  l = partition_items t room.
Proof.
  intros Hl Hperm.
  apply (StronglySorted_unique_strong msg_le); [|done|apply partition_items_sorted_le|done].
  intros x1 x2 H1 H2 Hle1 Hle2. rewrite Hperm in H1.
  eapply partition_items_key; [done..|]. by apply str_le_antisym.
Qed.

(** The scan after a delete is the scan before without that sort key. *)
Lemma partition_items_delete t room id :
  partition_items (delete (room, id) t) room
  = filter (λ m, msg_id m ≠ id) (partition_items t room).
Proof.
  symmetry. apply sorted_scan_unique.
  - apply StronglySorted_filter, partition_items_sorted_le.
  - apply NoDup_Permutation.
    + apply NoDup_filter, NoDup_partition_items.
    + apply NoDup_partition_items.
    + intros m. rewrite list_elem_of_filter, !elem_of_partition_items.
      rewrite lookup_delete. unfold item_key. split.
      * intros (Hid & <- & Hm). split; [done|]. rewrite decide_False; [done|congruence].
      * intros (<- & Hm). case_decide as Hk; [done|].
        split; [|done]. intros <-. by destruct Hk.
Qed.

Lemma partition_items_delete_other t k room :
  k.1 ≠ room →
  partition_items (delete k t) room = partition_items t room.
Proof.
  intros Hk. apply partition_items_ext. intros id.
  apply lookup_delete_ne. by intros ->.
Qed.

(** The answer of a list whose limit covers the room. *)
Lemma list_messages_all limit room t n :
  limit_reads limit n →
  Z.of_nat (List.length (partition_items t room)) ≤ n →
  list_messages None limit room t = (Ok (JsonItems (partition_items t room), 200), t).
Proof.
  intros Hreads Hlen. rewrite (list_messages_reads None limit room t n) by done.
  rewrite take_ge; [done|lia].
Qed.

Lemma length_filter_le {A} (P : A → Prop) `{∀ x, Decision (P x)} (l : list A) :
  (List.length (filter P l) ≤ List.length l)%nat.
Proof. apply sublist_length, sublist_filter. Qed.

End composition.

(** X9: a smaller limit returns a prefix of what a larger limit returns:
    the first records of the room in the same order, exactly as many as
    the smaller limit allows. *)
Theorem list_smaller_limit_prefix limit1 limit2 room t n1 n2 :
  limit_reads limit1 n1 →
  limit_reads limit2 n2 →
  n1 ≤ n2 →
  ∃ items1 items2,
    list_messages None limit1 room t = (Ok (JsonItems items1, 200), t) ∧
    list_messages None limit2 room t = (Ok (JsonItems items2, 200), t) ∧
    items1 = take (Z.to_nat n1) items2 ∧
    items1 `prefix_of` items2.
Proof.
  intros H1 H2 Hle.
  pose proof (limit_reads_py_int _ _ H1) as [_ Hpos].
  exists (take (Z.to_nat n1) (partition_items t room)),
         (take (Z.to_nat n2) (partition_items t room)).
  rewrite (list_messages_reads None limit1 room t n1) by done.
  rewrite (list_messages_reads None limit2 room t n2) by done.
  assert (Htake : take (Z.to_nat n1) (partition_items t room)
                  = take (Z.to_nat n1) (take (Z.to_nat n2) (partition_items t room))).
  { rewrite take_take. f_equal. lia. }
  split; [done|]. split; [done|]. split; [done|].
  rewrite Htake. apply prefix_take.
Qed.

Lemma list_smaller_limit_prefix_witness :
  ∃ items1 items2,
    list_messages None (Some "1") "lobby" lobby_table
    = (Ok (JsonItems items1, 200), lobby_table) ∧
    list_messages None None "lobby" lobby_table
    = (Ok (JsonItems items2, 200), lobby_table) ∧
    items1 = take (Z.to_nat 1) items2 ∧
    items1 `prefix_of` items2.
Proof.
  apply (list_smaller_limit_prefix (Some "1") None "lobby" lobby_table 1 50);
    [|reflexivity|lia].
  apply (limit_reads_str_int 1 EmptyString EmptyString);
    [lia|simpl; lia|reflexivity|reflexivity].
Defined.

(** X10: create keeps what the room listed.  After a create that
    answered with a record, a list whose limit covers the room returns
    the records listed before, each unchanged, and the new record: one
    record more, still ascending by [msg_id]. *)
Theorem create_then_list_adds_one fault new_ulid now_ms data room t m status t1 limit n :
  create_message fault new_ulid now_ms data room t = (Ok (JsonItem m, status), t1) →
  limit_reads limit n →
  Z.of_nat (List.length (partition_items t room)) < n →
  ∃ before after,
    list_messages None limit room t = (Ok (JsonItems before, 200), t) ∧
    list_messages None limit room t1 = (Ok (JsonItems after, 200), t1) ∧
    after ≡ₚ m :: before ∧
    (∀ x, x ∈ before → x ∈ after) ∧
    List.length after = S (List.length before) ∧
    StronglySorted msg_lt after.
Proof.
  intros (d & _ & _ & _ & Hfree & Hm & _ & ->)%create_message_ok Hn Hlen.
  assert (Hroom : room_id m = room) by by rewrite Hm.
  assert (Hkey : item_key m = (room, new_ulid)) by by rewrite Hm.
  rewrite <-Hkey in *. clear Hkey. subst room.
  pose proof (partition_items_insert t m Hfree) as Hperm.
  exists (partition_items t (room_id m)),
         (partition_items (<[item_key m := item_attrs m]> t) (room_id m)).
  rewrite !(list_messages_all limit _ _ n) by (try done; rewrite ?Hperm; simpl; lia).
  split; [done|]. split; [done|]. split; [done|]. split; [|split].
  - intros x Hx. rewrite Hperm. by right.
  - by rewrite Hperm.
  - apply partition_items_sorted.
Qed.

Lemma create_then_list_adds_one_witness :
  ∃ before after,
    list_messages None None "lobby" lobby_table = (Ok (JsonItems before, 200), lobby_table) ∧
    list_messages None None "lobby"
      (<[("lobby", "01B") := {| attr_ts := 2000; attr_user := "alice"; attr_text := "hi" |}]>
         lobby_table)
    = (Ok (JsonItems after, 200),
       <[("lobby", "01B") := {| attr_ts := 2000; attr_user := "alice"; attr_text := "hi" |}]>
         lobby_table) ∧
    after ≡ₚ {| room_id := "lobby"; msg_id := "01B"; ts := 2000;
               user := "alice"; text := "hi" |} :: before ∧
    (∀ x, x ∈ before → x ∈ after) ∧
    List.length after = S (List.length before) ∧
    StronglySorted msg_lt after.
Proof.
  apply (create_then_list_adds_one None "01B" 2000 alice_hi "lobby" lobby_table
           {| room_id := "lobby"; msg_id := "01B"; ts := 2000;
              user := "alice"; text := "hi" |} 201 _ None 50);
    [reflexivity|reflexivity|vm_compute; reflexivity].
Defined.

(** X11: a record whose generated id sorts after every id of the room is
    listed last: the list after the create is the list before it followed
    by the new record. *)
Theorem create_newest_listed_last fault new_ulid now_ms data room t m status t1 limit n :
  create_message fault new_ulid now_ms data room t = (Ok (JsonItem m, status), t1) →
  (∀ id a, t !! (room, id) = Some a → str_lt id (msg_id m)) →
  limit_reads limit n →
  Z.of_nat (List.length (partition_items t room)) < n →
  ∃ before,
    list_messages None limit room t = (Ok (JsonItems before, 200), t) ∧
    list_messages None limit room t1 = (Ok (JsonItems (before ++ [m]), 200), t1).
Proof.
  intros (d & _ & _ & _ & Hfree & Hm & _ & ->)%create_message_ok Hlast Hn Hlen.
  assert (Hroom : room_id m = room) by by rewrite Hm.
  assert (Hkey : item_key m = (room, new_ulid)) by by rewrite Hm.
  rewrite <-Hkey in *. clear Hkey. subst room.
  pose proof (partition_items_insert t m Hfree) as Hperm.
  exists (partition_items t (room_id m)).
  rewrite !(list_messages_all limit _ _ n) by (try done; rewrite ?Hperm; simpl; lia).
  split; [done|].
  rewrite <-(sorted_scan_unique (<[item_key m := item_attrs m]> t) (room_id m)
               (partition_items t (room_id m) ++ [m])); [done| |].
  - apply StronglySorted_app. split; [|split].
    + intros x1 x2 [Hr Hx1]%elem_of_partition_items ->%list_elem_of_singleton.
      apply str_le_lt_eq. left. unfold item_key in Hx1. rewrite Hr in Hx1.
      by apply (Hlast _ _ Hx1).
    + apply partition_items_sorted_le.
    + repeat constructor.
  - rewrite Hperm. symmetry. apply Permutation_cons_append.
Qed.

Lemma create_newest_listed_last_witness :
  ∃ before,
    list_messages None None "lobby" lobby_table = (Ok (JsonItems before, 200), lobby_table) ∧
    list_messages None None "lobby"
      (<[("lobby", "01B") := {| attr_ts := 2000; attr_user := "alice"; attr_text := "hi" |}]>
         lobby_table)
    = (Ok (JsonItems (before ++ [{| room_id := "lobby"; msg_id := "01B"; ts := 2000;
                                   user := "alice"; text := "hi" |}]), 200),
       <[("lobby", "01B") := {| attr_ts := 2000; attr_user := "alice"; attr_text := "hi" |}]>
         lobby_table).
Proof.
  apply (create_newest_listed_last None "01B" 2000 alice_hi "lobby" lobby_table
           {| room_id := "lobby"; msg_id := "01B"; ts := 2000;
              user := "alice"; text := "hi" |} 201 _ None 50).
  - reflexivity.
  - unfold lobby_table. intros id a [[= <-] _]%lookup_singleton_Some. reflexivity.
  - reflexivity.
  - vm_compute. reflexivity.
Defined.

(** X12: delete touches its own key only.  However the run ends, every
    other key keeps its attributes and the lists of the other rooms
    answer as before; when the backend serves the delete, a list of the
    room that covered it before returns the same records in the same
    order without the one of that [msg_id], and none with that [msg_id]
    is left. *)
Theorem delete_removes_only_its_record fault room id t :
  (∀ k, k ≠ (room, id) → (delete_message fault room id t).2 !! k = t !! k) ∧
  (∀ room' fault' limit,
     room' ≠ room →
     (list_messages fault' limit room' (delete_message fault room id t).2).1
     = (list_messages fault' limit room' t).1) ∧
  (∀ limit n,
     fault = None →
     limit_reads limit n →
     Z.of_nat (List.length (partition_items t room)) ≤ n →
     ∃ before,
       list_messages None limit room t = (Ok (JsonItems before, 200), t) ∧
       (list_messages None limit room (delete_message fault room id t).2).1
       = Ok (JsonItems (filter (λ m, msg_id m ≠ id) before), 200) ∧
       (∀ m, m ∈ filter (λ m, msg_id m ≠ id) before → msg_id m ≠ id)).
Proof.
  assert (Htable : (delete_message fault room id t).2 = t ∨
                   (fault = None ∧ (delete_message fault room id t).2 = delete (room, id) t)).
  { rewrite delete_message_run. destruct fault as [[code message]|]; [by left|].
    destruct (t !! (room, id)); [by right|by left]. }
  split; [|split].
  - intros k Hk. destruct Htable as [->|[_ ->]]; [done|]. by apply lookup_delete_ne.
  - intros room' fault' limit Hroom. destruct Htable as [->|[_ ->]]; [done|].
    rewrite !list_messages_run. simpl. rewrite partition_items_delete_other; [done|].
    simpl. congruence.
  - intros limit n -> Hn Hlen. exists (partition_items t room).
    assert (Hdel : (delete_message None room id t).2 = delete (room, id) t).
    { rewrite delete_message_run. destruct (t !! (room, id)) eqn:Hk; [done|].
      simpl. by rewrite delete_id. }
    rewrite Hdel, !(list_messages_all limit _ _ n); try done.
    + split; [done|]. rewrite partition_items_delete. split; [done|].
      by intros m [? _]%list_elem_of_filter.
    + rewrite partition_items_delete.
      pose proof (length_filter_le (λ m, msg_id m ≠ id) (partition_items t room)). lia.
Qed.

Lemma delete_removes_only_its_record_witness :
  ∃ before,
    list_messages None None "lobby" lobby_table = (Ok (JsonItems before, 200), lobby_table) ∧
    (list_messages None None "lobby" (delete_message None "lobby" "01A" lobby_table).2).1
    = Ok (JsonItems (filter (λ m, msg_id m ≠ "01A") before), 200) ∧
    (∀ m, m ∈ filter (λ m, msg_id m ≠ "01A") before → msg_id m ≠ "01A").
Proof.
  apply (proj2 (proj2 (delete_removes_only_its_record None "lobby" "01A" lobby_table))
           None 50); [reflexivity|reflexivity|vm_compute; discriminate].
Defined.
